(** * central_groups: a shallow embedding of plugins/modules/central_groups.py

    The module translates one of six playbook actions into a call on the
    CentralApi HTTP client and maps the returned status code to
    [exit_json] or [fail_json].  The embedding keeps the shape of the
    Python source:

    - Python objects are a small tree type [value]; a dict is an
      association list in insertion order;
    - the calls on the [central_api] object are the events of a small
      free monad [prog], so that "which requests are issued" is a property
      of the program itself, for every client;
    - Python exceptions, and the [SystemExit] that [exit_json] and
      [fail_json] raise, are the [Raise] leaf of that monad. *)

From Stdlib Require Import String Ascii ZArith List Bool Lia.
Import ListNotations.
Open Scope string_scope.
Open Scope Z_scope.

(** ** Python values *)

#[local] Unset Elimination Schemes.

(** The objects the module handles: [None], booleans, integers, strings,
    lists and dicts with string keys.  Floats are left out: the module
    never computes with one. *)
Inductive value : Type :=
| VNone
| VBool (b : bool)
| VInt (z : Z)
| VStr (s : string)
| VList (l : list value)
| VDict (d : list (string * value)).

#[local] Set Elimination Schemes.

Definition dict := list (string * value).

(** [d[key]] on a dict: the first (and, in a Python dict, only) entry
    under the key. *)
Fixpoint dict_get (d : dict) (key : string) : option value :=
  match d with
  | [] => None
  | (k, v) :: rest => if String.eqb k key then Some v else dict_get rest key
  end.

Definition is_none (v : value) : bool :=
  match v with VNone => true | _ => false end.

(** ** remove_nulls (lines 161-169) *)

(** One pass over [data.items()]: an entry whose value is [None] is
    skipped, a dict value is pruned recursively, every other value
    (a list included) is copied as it is.  [value] is nested through
    [list], so the recursion is written on [value] with the loop over the
    items inside; [remove_nulls] is its restriction to dicts, and
    [remove_nulls_eq] below gives it back in the shape of the source. *)
Fixpoint remove_nulls_value (data : value) : value :=
  match data with
  | VDict entries =>
      VDict ((fix items (entries : dict) : dict :=
                match entries with
                | [] => []
                | (key, v) :: rest =>
                    match v with
                    | VNone => items rest
                    | VDict _ => (key, remove_nulls_value v) :: items rest
                    | _ => (key, v) :: items rest
                    end
                end) entries)
  | _ => data
  end.

Definition remove_nulls (data : dict) : dict :=
  match remove_nulls_value (VDict data) with
  | VDict parsed_data => parsed_data
  | _ => []
  end.

(** ** Strings *)

(** [str.lower()] on the ASCII letters.  Python also folds non-ASCII
    letters; the only ones it folds to an ASCII letter give [k] and [i],
    which no action name contains, so the comparisons of [api_call] decide
    the same way. *)
Definition lower_ascii (c : ascii) : ascii :=
  let n := nat_of_ascii c in
  if (Nat.leb 65 n && Nat.leb n 90)%bool then ascii_of_nat (n + 32) else c.

Fixpoint lower (s : string) : string :=
  match s with
  | EmptyString => EmptyString
  | String c s' => String (lower_ascii c) (lower s')
  end.

(** [sub in s] on strings. *)
Fixpoint str_in (sub s : string) : bool :=
  String.prefix sub s ||
  match s with
  | EmptyString => false
  | String _ s' => str_in sub s'
  end.

(** Truth value of an optional string: [None] and [""] are false. *)
Definition truthy_str (s : option string) : bool :=
  match s with
  | None => false
  | Some EmptyString => false
  | Some (String _ _) => true
  end.

Definition is_not_None {A : Type} (x : option A) : bool :=
  match x with Some _ => true | None => false end.

(** A playbook parameter that was not given is [None]; the object a
    parameter stands for. *)
Definition str_value (s : option string) : value :=
  match s with Some s' => VStr s' | None => VNone end.

Definition list_value (l : option (list value)) : value :=
  match l with Some l' => VList l' | None => VNone end.

Definition dict_value (d : option dict) : value :=
  match d with Some d' => VDict d' | None => VNone end.

(** [str(s)] for a string or [None]. *)
Definition str (s : option string) : string :=
  match s with Some s' => s' | None => "None" end.

(** ** The client collaborator and the program monad *)

Definition HeaderMap := value.

(** The [{"resp": ..., "code": ...}] record every handler returns. *)
Record result : Type := mkResult { resp : value; code : option Z }.

(** The methods of [CentralApi] the module calls, indexed by what they
    return. *)
Inductive client_call : Type -> Type :=
| GetHeaders (auth : bool) (http_method : string) : client_call HeaderMap
| GetUrl (endpoint : string) (query_params : dict) : client_call string
| GetListParams (items : value) : client_call string
| Get (path : string) (headers : HeaderMap) : client_call result
| Post (path : string) (headers : HeaderMap) (data : value) : client_call result
| Patch (path : string) (headers : HeaderMap) (data : value) : client_call result
| Delete (path : string) (headers : HeaderMap) : client_call result.

(** The four methods that send an HTTP request. *)
Definition is_http {X : Type} (c : client_call X) : bool :=
  match c with
  | Get _ _ | Post _ _ _ | Patch _ _ _ | Delete _ _ => true
  | _ => false
  end.

(** What [module.exit_json] and [module.fail_json] report: their keyword
    arguments, in call order. *)
Inductive module_exit : Type :=
| ExitJson (kwargs : dict)
| FailJson (kwargs : dict).

Inductive exn : Type :=
| KeyError (key : string)
| TypeError
| UnboundLocalError (name : string)
| SystemExit (e : module_exit).

Inductive prog (A : Type) : Type :=
| Ret (a : A)
| Raise (e : exn)
| Call {X : Type} (c : client_call X) (k : X -> prog A).

Arguments Ret {A} a.
Arguments Raise {A} e.
Arguments Call {A X} c k.

Fixpoint bind {A B : Type} (m : prog A) (f : A -> prog B) : prog B :=
  match m with
  | Ret a => f a
  | Raise e => Raise e
  | Call c k => Call c (fun x => bind (k x) f)
  end.

Definition call {X : Type} (c : client_call X) : prog X := Call c Ret.

Notation "x <- m ;; k" := (bind m (fun x => k))
  (at level 61, m at next level, right associativity).

Definition exit_json {A : Type} (kwargs : dict) : prog A :=
  Raise (SystemExit (ExitJson kwargs)).

Definition fail_json {A : Type} (kwargs : dict) : prog A :=
  Raise (SystemExit (FailJson kwargs)).

(** [d[key]] as a statement: [KeyError] when the key is missing. *)
Definition getitem (d : dict) (key : string) : prog value :=
  match dict_get d key with
  | Some v => Ret v
  | None => Raise (KeyError key)
  end.

(** [v[key]] on an arbitrary object: only a dict can be subscripted by a
    string. *)
Definition subscript (v : value) (key : string) : prog value :=
  match v with
  | VDict d => getitem d key
  | _ => Raise TypeError
  end.

(** ** error_msg (lines 171-187) *)

(** The [if]/[elif] chain has no [else]: for a method outside the five
    names [resp] is never assigned and the last statement fails. *)
Definition error_msg (method : string) : prog result :=
  let result := mkResult VNone (Some 400) in
  resp0 <-
    (if (String.eqb method "create" || String.eqb method "update")%bool then
       Ret "Group name or Group attributes not present in the playbook"%string
     else if String.eqb method "delete" then
       Ret "Group name to be deleted not present in the playbook"%string
     else if String.eqb method "clone" then
       Ret ("Group name or clone-from-group parameters not present in "
            ++ "the playbook")%string
     else if String.eqb method "get" then
       Ret "List of groups (group_list) not present in the playbook"%string
     else Raise (UnboundLocalError "resp")) ;;
  Ret (mkResult (VStr resp0) (code result)).

(** ** The six handlers (lines 190-280)

    The [central_api] argument of the source is the receiver of the
    [call]s. *)

Definition get_groups (limit offset : value) : prog result :=
  let endpoint := "/configuration/v2/groups" in
  let query_params := [("limit", limit); ("offset", offset)] in
  headers <- call (GetHeaders false "get") ;;
  path <- call (GetUrl endpoint query_params) ;;
  result <- call (Get path headers) ;;
  Ret result.

Definition get_group_mode (group_list : option (list value)) : prog result :=
  if is_not_None group_list then
    groups <- call (GetListParams (list_value group_list)) ;;
    let query_params := [("groups", VStr groups)] in
    headers <- call (GetHeaders false "get") ;;
    path <- call (GetUrl "/configuration/v2/groups/template_info"
                         query_params) ;;
    result <- call (Get path headers) ;;
    Ret result
  else error_msg "get".

Definition clone (group_name clone_from_group : option string) : prog result :=
  if (truthy_str group_name && is_not_None clone_from_group)%bool then
    let path := "/configuration/v2/groups/clone" in
    let data := [("group", str_value group_name);
                 ("clone_group", str_value clone_from_group)] in
    headers <- call (GetHeaders false "post") ;;
    result <- call (Post path headers (VDict data)) ;;
    Ret result
  else error_msg "clone".

Definition create_group (group_name : option string)
    (group_attributes : option dict) : prog result :=
  if (truthy_str group_name && is_not_None group_attributes)%bool then
    let path := "/configuration/v3/groups" in
    let attrs := dict_value group_attributes in
    template_info <- subscript attrs "template_info" ;;
    wired <- subscript template_info "wired" ;;
    template_info' <- subscript attrs "template_info" ;;
    wireless <- subscript template_info' "wireless" ;;
    device_type <- subscript attrs "device_type" ;;
    architecture <- subscript attrs "architecture" ;;
    ap_role <- subscript attrs "ap_role" ;;
    gw_role <- subscript attrs "gw_role" ;;
    switch_type <- subscript attrs "switch_type" ;;
    monitor_mode <- subscript attrs "monitor_mode" ;;
    new_central <- subscript attrs "new_central" ;;
    let data :=
      [("group", str_value group_name);
       ("group_attributes", VDict
          [("template_info", VDict
              [("Wired", wired);
               ("Wireless", wireless)]);
           ("group_properties", VDict
              [("AllowedDevTypes", device_type);
               ("Architecture", architecture);
               ("ApNetworkRole", ap_role);
               ("GwNetworkRole", gw_role);
               ("AllowedSwitchTypes", switch_type);
               ("MonitorOnly:", monitor_mode);
               ("NewCentral", new_central)])])] in
    headers <- call (GetHeaders false "post") ;;
    result <- call (Post path headers (VDict (remove_nulls data))) ;;
    Ret result
  else error_msg "create".

Definition update_group (group_name : option string)
    (group_attributes : option dict) : prog result :=
  if (truthy_str group_name && is_not_None group_attributes)%bool then
    let path := ("/configuration/v2/groups/" ++ str group_name)%string in
    let data := dict_value group_attributes in
    headers <- call (GetHeaders false "post") ;;
    result <- call (Patch path headers data) ;;
    Ret result
  else error_msg "update".

Definition delete_group (group_name : option string) : prog result :=
  if is_not_None group_name then
    let path := ("/configuration/v1/groups/" ++ str group_name)%string in
    headers <- call (GetHeaders false "delete") ;;
    result <- call (Delete path headers) ;;
    Ret result
  else error_msg "delete".

(** ** api_call (lines 284-319) *)

(** [module.params], typed as the [argument_spec] of [main] declares
    them. *)
Record params : Type := mkParams {
  action : string;
  limit : value;
  offset : value;
  group_list : option (list value);
  group_name : option string;
  group_attributes : option dict;
  clone_from_group : option string
}.

Definition api_call (module : params) : prog result :=
  let action := lower (action module) in
  let group_name := group_name module in
  let group_list := group_list module in
  let group_attributes := group_attributes module in
  let limit := limit module in
  let offset := offset module in
  let clone_from_group := clone_from_group module in
  if String.eqb action "get_groups" then
    get_groups limit offset
  else if String.eqb action "get_group_mode" then
    get_group_mode group_list
  else if String.eqb action "clone" then
    clone group_name clone_from_group
  else if String.eqb action "create" then
    create_group group_name group_attributes
  else if String.eqb action "update" then
    update_group group_name group_attributes
  else if String.eqb action "delete" then
    delete_group group_name
  else
    fail_json [("changed", VBool false);
               ("msg", VStr "Unsupported action provided in playbook")].

(** ** main (lines 322-382) *)

Definition truthy_code (c : option Z) : bool :=
  match c with
  | Some z => negb (z =? 0)
  | None => false
  end.

(** [c in codes] for a status code that may be [None]. *)
Definition code_in (c : option Z) (codes : list Z) : bool :=
  match c with
  | Some z => existsb (Z.eqb z) codes
  | None => false
  end.

Definition code_value (c : option Z) : value :=
  match c with Some z => VInt z | None => VNone end.

Section Main.

(** [json.loads] on a string: the parsed document, or [None] when it
    raises [ValueError]. *)
Variable json_loads : string -> option value.

(** The [try] block of lines 369-372: an object that is not a string
    raises [TypeError]; both exceptions leave the body as it was. *)
Definition try_loads (resp0 : value) : value :=
  match resp0 with
  | VStr s =>
      match json_loads s with
      | Some parsed => parsed
      | None => resp0
      end
  | _ => resp0
  end.

(** The body of [main] after the construction of [AnsibleModule], whose
    parameters are [module].  Every path ends in [exit_json] or
    [fail_json], so [main] never returns a value. *)
Definition main (module : params) : prog Empty_set :=
  let success_codes := [200; 201] in
  let exit_codes := [304; 400; 404] in
  let changed := false in
  let changed :=
    if negb (str_in "get" (action module)) then true else changed in
  result <- api_call module ;;
  let result := mkResult (try_loads (resp result)) (code result) in
  if (truthy_code (code result) && code_in (code result) success_codes)%bool
  then
    exit_json [("changed", VBool changed); ("msg", resp result);
               ("response_code", code_value (code result))]
  else if (truthy_code (code result) && code_in (code result) exit_codes)%bool
  then
    exit_json [("changed", VBool false); ("msg", resp result);
               ("response_code", code_value (code result))]
  else
    fail_json [("changed", VBool false); ("msg", resp result);
               ("response_code", code_value (code result))].

End Main.

(** ** The check of [action] by AnsibleModule (lines 327-333)

    [main] begins by constructing [AnsibleModule] from the
    [argument_spec].  The constructor is code of the Ansible library; of
    what it checks, this is the part on [action]: a value that is not one
    of the [choices] of lines 329-333 ends the module in fail_json before
    line 363 is reached.  The text of the message is the library's and is
    the parameter [invalid_choice]. *)
Definition action_choices : list string :=
  ["get_groups"; "get_group_mode"; "clone"; "update"; "create"; "delete"].

Definition module_main (invalid_choice : string -> string)
    (json_loads : string -> option value) (module : params)
  : prog Empty_set :=
  if existsb (String.eqb (action module)) action_choices then
    main json_loads module
  else
    fail_json [("msg", VStr (invalid_choice (action module)))].

(** ** Running a program against a client *)

(** A logged call on the client, with its arguments. *)
Inductive logged : Type :=
| Logged {X : Type} (c : client_call X).

Definition logged_http (l : logged) : bool :=
  match l with Logged c => is_http c end.

(** The number of HTTP requests in a log: what a call-count assertion on
    [get], [post], [patch] and [delete] observes. *)
Definition http_calls (log : list logged) : nat :=
  List.length (filter logged_http log).

Section Run.

(** Any client: a state and an answer to every call. *)
Variable St : Type.
Variable handle : forall X : Type, client_call X -> St -> X * St.

Fixpoint run {A : Type} (p : prog A) (st : St)
  : (exn + A) * St * list logged :=
  match p with
  | Ret a => (inr a, st, [])
  | Raise e => (inl e, st, [])
  | Call c k =>
      let '(x, st') := handle _ c st in
      let '(r, st'', log) := run (k x) st' in
      (r, st'', Logged c :: log)
  end.

End Run.

Arguments run {St} handle {A} p st.

(** A client for examples: it answers every request with a fixed status
    and body, and keeps no state. *)
Definition fixed_client (status : option Z) (body : value)
  : forall X : Type, client_call X -> unit -> X * unit :=
  fun X c st =>
    match c in client_call T return T * unit with
    | GetHeaders _ _ => (VDict [], st)
    | GetUrl endpoint _ => (endpoint, st)
    | GetListParams _ => (""%string, st)
    | Get _ _ | Post _ _ _ | Patch _ _ _ | Delete _ _ =>
        (mkResult body status, st)
    end.

(** A handler rejects its arguments: against every client, it returns
    the validation record with [msg] and code 400, and the log of calls on
    the client stays empty. *)
Definition rejects (p : prog result) (msg : string) : Prop :=
  forall (St : Type) (handle : forall X : Type, client_call X -> St -> X * St)
         (st : St),
    run handle p st = (inr (mkResult (VStr msg) (Some 400)), st, []).

(** The log of calls a program leaves on a client. *)
Definition log_of {St A : Type}
    (handle : forall X : Type, client_call X -> St -> X * St)
    (p : prog A) (st : St) : list logged :=
  snd (run handle p st).

(** The [group_attributes] the [argument_spec] yields for a playbook that
    gives only the required device_type: template_info with its two
    defaults, every other option [None]. *)
Definition attributes_of (device_type : list value) : dict :=
  [("template_info", VDict [("wireless", VBool false);
                            ("wired", VBool false)]);
   ("architecture", VNone);
   ("device_type", VList device_type);
   ("ap_role", VNone);
   ("gw_role", VNone);
   ("switch_type", VNone);
   ("monitor_mode", VNone);
   ("new_central", VNone)].

(** The parameters of a playbook task that gives [action] and, as the
    [argument_spec] requires of every task, a device_type in
    group_attributes; limit, offset and the other options are at their
    defaults. *)
Definition task (action0 : string) : params :=
  mkParams action0 (VInt 20) (VInt 0) None None
           (Some (attributes_of [VStr "AccessPoints"])) None.

(** The [group_attributes] of the create scenario: architecture AOS10,
    device type AccessPoints, every other property absent. *)
Definition aos10_access_points (wired wireless : bool) : dict :=
  [("template_info", VDict [("wireless", VBool wireless);
                            ("wired", VBool wired)]);
   ("architecture", VStr "AOS10");
   ("device_type", VList [VStr "AccessPoints"]);
   ("ap_role", VNone);
   ("gw_role", VNone);
   ("switch_type", VNone);
   ("monitor_mode", VNone);
   ("new_central", VNone)].

(** What the development assumes of [json.loads]: a document whose first
    character is a capital letter other than [N] (NaN) and [I] (Infinity)
    is not JSON, and [ValueError] is raised. *)
Definition rejects_words (json_loads : string -> option value) : Prop :=
  forall (c : ascii) (s : string),
    (65 <= nat_of_ascii c <= 90)%nat -> c <> "N"%char -> c <> "I"%char ->
    json_loads (String c s) = None.

(** A parser for examples: the three JSON literals and nothing else. *)
Definition json_literals (s : string) : option value :=
  if String.eqb s "null" then Some VNone
  else if String.eqb s "true" then Some (VBool true)
  else if String.eqb s "false" then Some (VBool false)
  else None.

(** ** The vocabulary of the specification *)

(** The six action names. *)
Definition actions : list string :=
  ["get_groups"; "get_group_mode"; "clone"; "update"; "create"; "delete"].

(** The actions the specification calls state-changing. *)
Definition state_changing (a : string) : bool :=
  existsb (String.eqb a) ["clone"; "create"; "update"; "delete"].

(** OutcomeClass, as section 3 of the specification words it. *)
Inductive OutcomeClass : Type := Success | NoOpFailure | FatalFailure.

Definition classify (status : Z) : OutcomeClass :=
  if existsb (Z.eqb status) [200; 201] then Success
  else if existsb (Z.eqb status) [304; 400; 404] then NoOpFailure
  else FatalFailure.

(** The body of the create request, as the table of section 4.2 lists it,
    before pruning. *)
Definition create_body (group_name0 : string)
    (wired wireless device_type architecture ap_role gw_role switch_type
     monitor_mode new_central : value) : dict :=
  [("group", VStr group_name0);
   ("group_attributes", VDict
      [("template_info", VDict [("Wired", wired); ("Wireless", wireless)]);
       ("group_properties", VDict
          [("AllowedDevTypes", device_type);
           ("Architecture", architecture);
           ("ApNetworkRole", ap_role);
           ("GwNetworkRole", gw_role);
           ("AllowedSwitchTypes", switch_type);
           ("MonitorOnly:", monitor_mode);
           ("NewCentral", new_central)])])].

(** What each class reports: a module exit with the [changed] flag of the
    action, a module exit with [changed=false], a module failure. *)
Definition report (o : OutcomeClass) (changed : bool) (body : value)
    (status : Z) : module_exit :=
  match o with
  | Success =>
      ExitJson [("changed", VBool changed); ("msg", body);
                ("response_code", VInt status)]
  | NoOpFailure =>
      ExitJson [("changed", VBool false); ("msg", body);
                ("response_code", VInt status)]
  | FatalFailure =>
      FailJson [("changed", VBool false); ("msg", body);
                ("response_code", VInt status)]
  end.

(** Python's truth value of an object. *)
Definition truthy (v : value) : bool :=
  match v with
  | VNone => false
  | VBool b => b
  | VInt z => negb (z =? 0)
  | VStr s => negb (String.eqb s "")
  | VList l => match l with [] => false | _ => true end
  | VDict d => match d with [] => false | _ => true end
  end.

(** Some mapping inside [v], at any depth and through lists as well as
    through mappings, has an entry whose value is [None]. *)
Fixpoint null_entry (v : value) : bool :=
  match v with
  | VList l => existsb null_entry l
  | VDict d => existsb (fun kv => let '(_, x) := kv in
                                  (is_none x || null_entry x)%bool) d
  | _ => false
  end.

(** The same, looking only into mappings that are values of mappings. *)
Fixpoint null_entry_in_dicts (v : value) : bool :=
  match v with
  | VDict d => existsb (fun kv => let '(_, x) := kv in
                                  (is_none x || null_entry_in_dicts x)%bool) d
  | _ => false
  end.

(** ** Shapes of programs and logs *)

(** A program that makes client calls which send nothing, then exactly
    one HTTP request, and returns the answer to that request as it is. *)
Inductive one_request : prog result -> Prop :=
| req_http (c : client_call result) :
    is_http c = true -> one_request (Call c Ret)
| req_before {X : Type} (c : client_call X) (k : X -> prog result) :
    is_http c = false -> (forall x, one_request (k x)) ->
    one_request (Call c k).

(** The path and body of a logged POST. *)
Definition posted (l : logged) : option (string * value) :=
  match l with
  | Logged c =>
      match c with
      | Post path _ data => Some (path, data)
      | _ => None
      end
  end.

(** The fields [create_group] reads from group_attributes, in the order
    in which it reads them. *)
Definition create_fields : list string :=
  ["template_info"; "wired"; "wireless"; "device_type"; "architecture";
   "ap_role"; "gw_role"; "switch_type"; "monitor_mode"; "new_central"].

(** ** Induction on values *)

Section ValueInd.

Variable P : value -> Prop.
Hypothesis HNone : P VNone.
Hypothesis HBool : forall b, P (VBool b).
Hypothesis HInt : forall z, P (VInt z).
Hypothesis HStr : forall s, P (VStr s).
Hypothesis HList : forall l, Forall P l -> P (VList l).
Hypothesis HDict : forall d, Forall (fun kv => P (snd kv)) d -> P (VDict d).

Fixpoint value_ind (v : value) : P v :=
  match v with
  | VNone => HNone
  | VBool b => HBool b
  | VInt z => HInt z
  | VStr s => HStr s
  | VList l =>
      HList l ((fix all (l : list value) : Forall P l :=
                  match l with
                  | [] => Forall_nil P
                  | x :: l' => Forall_cons x (value_ind x) (all l')
                  end) l)
  | VDict d =>
      HDict d ((fix all (d : dict) : Forall (fun kv => P (snd kv)) d :=
                  match d with
                  | [] => Forall_nil _
                  | (k, x) :: d' =>
                      Forall_cons (k, x) (value_ind x) (all d')
                  end) d)
  end.

End ValueInd.

(** * Properties *)

(** ** remove_nulls *)

(** [remove_nulls] in the shape of the source loop. *)
Lemma remove_nulls_eq (data : dict) :
  remove_nulls data =
  match data with
  | [] => []
  | (key, v) :: rest =>
      match v with
      | VNone => remove_nulls rest
      | VDict d => (key, VDict (remove_nulls d)) :: remove_nulls rest
      | _ => (key, v) :: remove_nulls rest
      end
  end.
Proof.
  destruct data as [|[key v] rest]; [reflexivity|].
  destruct v; reflexivity.
Qed.

Lemma remove_nulls_value_dict (d : dict) :
  remove_nulls_value (VDict d) = VDict (remove_nulls d).
Proof. reflexivity. Qed.

Lemma remove_nulls_value_idem (v : value) :
  remove_nulls_value (remove_nulls_value v) = remove_nulls_value v.
Proof.
  induction v using value_ind; try reflexivity.
  rewrite !remove_nulls_value_dict. f_equal.
  induction H as [|[key x] rest Hx _ IH]; [reflexivity|].
  simpl in Hx.
  rewrite (remove_nulls_eq ((key, x) :: rest)).
  destruct x; try assumption;
    rewrite remove_nulls_eq, IH; try reflexivity.
  rewrite <- !remove_nulls_value_dict, Hx. reflexivity.
Qed.

Lemma remove_nulls_idem (d : dict) :
  remove_nulls (remove_nulls d) = remove_nulls d.
Proof.
  pose proof (remove_nulls_value_idem (VDict d)) as H.
  rewrite !remove_nulls_value_dict in H. now injection H.
Qed.

Lemma remove_nulls_no_null (v : value) :
  null_entry_in_dicts (remove_nulls_value v) = false.
Proof.
  induction v using value_ind; try reflexivity.
  rewrite remove_nulls_value_dict.
  induction H as [|[key x] rest Hx _ IH]; [reflexivity|].
  simpl in Hx. rewrite remove_nulls_eq.
  destruct x; try assumption;
    change (null_entry_in_dicts (VDict (?e :: ?r)))
      with ((let '(_, y) := e in is_none y || null_entry_in_dicts y)
            || null_entry_in_dicts (VDict r))%bool;
    rewrite IH; try reflexivity.
  rewrite <- remove_nulls_value_dict, Hx. reflexivity.
Qed.

Lemma remove_nulls_keys (d : dict) :
  map fst (remove_nulls d) =
  map fst (filter (fun kv => negb (is_none (snd kv))) d).
Proof.
  induction d as [|[key x] rest IH]; [reflexivity|].
  rewrite remove_nulls_eq.
  destruct x; simpl; rewrite ?IH; reflexivity.
Qed.

Lemma remove_nulls_keeps_falsy (d : dict) (key : string) (v : value) :
  In (key, v) d -> truthy v = false -> v <> VNone ->
  In (key, v) (remove_nulls d).
Proof.
  intros Hin Hf Hn.
  induction d as [|[k x] rest IH]; [contradiction|].
  rewrite remove_nulls_eq.
  destruct Hin as [Heq|Hin].
  - injection Heq as -> ->.
    destruct v as [| | | | |dv]; try (now left); [congruence|].
    destruct dv; [now left|discriminate].
  - specialize (IH Hin). destruct x; try (now right); assumption.
Qed.

Lemma remove_nulls_entries (d : dict) :
  remove_nulls d =
  map (fun kv => (fst kv,
                  match snd kv with
                  | VDict d' => VDict (remove_nulls d')
                  | v => v
                  end))
      (filter (fun kv => negb (is_none (snd kv))) d).
Proof.
  induction d as [|[key x] rest IH]; [reflexivity|].
  rewrite remove_nulls_eq.
  destruct x; simpl; rewrite <- ?IH; reflexivity.
Qed.

Lemma remove_nulls_keeps (d : dict) (key : string) (v : value) :
  In (key, v) d -> v <> VNone ->
  In (key, match v with VDict d' => VDict (remove_nulls d') | _ => v end)
     (remove_nulls d).
Proof.
  intros Hin Hv. rewrite remove_nulls_entries.
  assert (Hf : In (key, v)
                  (filter (fun kv => negb (is_none (snd kv))) d)).
  { apply filter_In. split; [assumption|].
    destruct v; try reflexivity. contradiction. }
  apply (in_map (fun kv => (fst kv,
                            match snd kv with
                            | VDict d' => VDict (remove_nulls d')
                            | v0 => v0
                            end))) in Hf.
  destruct v; exact Hf.
Qed.

(** C7 (as amended).  [remove_nulls] is idempotent.  Its result is made
    of the entries of [d] whose value is not null, in their order, each
    with its key, and with its value as it was when the value is not a
    mapping (a list is copied as it is, whatever it holds) and pruned in
    the same way when it is one.  So the result has no null-valued entry,
    neither at the top nor in a mapping reached through mapping values,
    every entry with a value that is not null is kept - nested ones too -
    and so is every value that is falsy but not null (0, false, the empty
    string). *)
Theorem remove_nulls_pruning (d : dict) :
  remove_nulls (remove_nulls d) = remove_nulls d /\
  null_entry_in_dicts (VDict (remove_nulls d)) = false /\
  remove_nulls d =
    map (fun kv => (fst kv,
                    match snd kv with
                    | VDict d' => VDict (remove_nulls d')
                    | v => v
                    end))
        (filter (fun kv => negb (is_none (snd kv))) d) /\
  map fst (remove_nulls d) =
    map fst (filter (fun kv => negb (is_none (snd kv))) d) /\
  (forall key l, In (key, VList l) d -> In (key, VList l) (remove_nulls d)) /\
  (forall key d', In (key, VDict d') d ->
                  In (key, VDict (remove_nulls d')) (remove_nulls d)) /\
  (forall key v, In (key, v) d -> v <> VNone ->
                 (forall d', v <> VDict d') -> In (key, v) (remove_nulls d)) /\
  (forall key v, In (key, v) d -> truthy v = false -> v <> VNone ->
                 In (key, v) (remove_nulls d)).
Proof.
  split; [apply remove_nulls_idem|].
  split; [apply (remove_nulls_no_null (VDict d))|].
  split; [apply remove_nulls_entries|].
  split; [apply remove_nulls_keys|].
  split; [intros key l Hin;
          apply (remove_nulls_keeps d key (VList l) Hin); discriminate|].
  split; [intros key d' Hin;
          apply (remove_nulls_keeps d key (VDict d') Hin); discriminate|].
  split.
  - intros key v Hin Hv Hnd.
    pose proof (remove_nulls_keeps d key v Hin Hv) as H.
    destruct v; try assumption. exfalso. exact (Hnd _ eq_refl).
  - intros key v. apply remove_nulls_keeps_falsy.
Qed.

Lemma remove_nulls_pruning_witness :
  let inner := [("e", VNone); ("f", VStr ""); ("g", VStr "kept");
                ("h", VList [VDict [("i", VNone)]])] in
  let d := [("a", VInt 0); ("b", VNone); ("c", VBool false);
            ("d", VDict inner); ("n", VInt 7)] in
  remove_nulls d =
    [("a", VInt 0); ("c", VBool false);
     ("d", VDict [("f", VStr ""); ("g", VStr "kept");
                  ("h", VList [VDict [("i", VNone)]])]);
     ("n", VInt 7)] /\
  In ("a", VInt 0) (remove_nulls d) /\
  In ("n", VInt 7) (remove_nulls d) /\
  In ("d", VDict (remove_nulls inner)) (remove_nulls d) /\
  In ("g", VStr "kept") (remove_nulls inner) /\
  In ("h", VList [VDict [("i", VNone)]]) (remove_nulls inner).
Proof.
  intros inner d.
  destruct (remove_nulls_pruning d)
    as (_ & _ & Hentries & _ & _ & Hdict & Hkeep & Hfalsy).
  destruct (remove_nulls_pruning inner)
    as (_ & _ & _ & _ & Hlist & _ & Hkeep' & _).
  split; [rewrite Hentries; reflexivity|].
  split; [apply Hfalsy; simpl; try reflexivity; try discriminate; tauto|].
  split; [apply Hkeep; simpl; try discriminate; tauto|].
  split; [apply Hdict; simpl; tauto|].
  split; [apply Hkeep'; simpl; try discriminate; tauto|].
  apply Hlist; simpl; tauto.
Defined.

(** C7 (as stated) fails for a mapping inside a list: the list is copied
    as it is, and the null-valued entry of the mapping in it is still
    there after pruning. *)
Lemma remove_nulls_skips_lists :
  remove_nulls [("a", VList [VDict [("b", VNone)]])] =
    [("a", VList [VDict [("b", VNone)]])] /\
  null_entry (VDict (remove_nulls [("a", VList [VDict [("b", VNone)]])]))
    = true.
Proof. split; reflexivity. Qed.

(** ** Programs and their runs *)

(** One step of [run]: name the answer of the client. *)
Ltac step_run handle :=
  repeat (simpl;
          match goal with
          | |- context [handle ?X ?c ?st] =>
              destruct (handle X c st) as [? ?]
          end); simpl.

Lemma run_bind {St A B : Type}
    (handle : forall X : Type, client_call X -> St -> X * St)
    (m : prog A) (f : A -> prog B) (st : St) :
  run handle (bind m f) st =
  match run handle m st with
  | (inr a, st', log) =>
      let '(r, st'', log') := run handle (f a) st' in (r, st'', (log ++ log')%list)
  | (inl e, st', log) => (inl e, st', log)
  end.
Proof.
  revert st. induction m as [a|e|X c k IH]; intro st; simpl.
  - destruct (run handle (f a) st) as [[r st''] log']. reflexivity.
  - reflexivity.
  - destruct (handle X c st) as [x st1]. rewrite IH.
    destruct (run handle (k x) st1) as [[[e|a] st2] log]; [reflexivity|].
    destruct (run handle (f a) st2) as [[r st3] log']. reflexivity.
Qed.

(** A program rejects exactly when it is the immediate return of the
    validation record. *)
Lemma rejects_iff (p : prog result) (msg : string) :
  rejects p msg <-> p = Ret (mkResult (VStr msg) (Some 400)).
Proof.
  split.
  - intro H. specialize (H unit (fixed_client None VNone) tt).
    destruct p as [a|e|X c k]; simpl in H.
    + now injection H as ->.
    + discriminate.
    + destruct (fixed_client None VNone X c tt) as [x st1].
      destruct (run _ (k x) st1) as [[r st2] log]. discriminate.
  - intros -> St handle st. reflexivity.
Qed.

(** ** Dispatch *)

Lemma api_call_dispatch (p : params) :
  (lower (action p) = "get_groups" ->
   api_call p = get_groups (limit p) (offset p)) /\
  (lower (action p) = "get_group_mode" ->
   api_call p = get_group_mode (group_list p)) /\
  (lower (action p) = "clone" ->
   api_call p = clone (group_name p) (clone_from_group p)) /\
  (lower (action p) = "create" ->
   api_call p = create_group (group_name p) (group_attributes p)) /\
  (lower (action p) = "update" ->
   api_call p = update_group (group_name p) (group_attributes p)) /\
  (lower (action p) = "delete" ->
   api_call p = delete_group (group_name p)).
Proof.
  repeat split; intro H; unfold api_call; rewrite H; reflexivity.
Qed.

(** ** Validation inside the handlers *)

(** C3.  For each of the five actions with required fields, when a
    required field is absent ([None]) the handler returns the record with
    its canned message and code 400, and no method of the client is
    called - in particular none of get, post, patch, delete.  The clone
    scenario is the case [clone (Some _) None]. *)
Theorem missing_field_rejected :
  rejects (get_group_mode None)
    "List of groups (group_list) not present in the playbook" /\
  (forall group_name clone_from_group,
      group_name = None \/ clone_from_group = None ->
      rejects (clone group_name clone_from_group)
        "Group name or clone-from-group parameters not present in the playbook") /\
  (forall group_name group_attributes,
      group_name = None \/ group_attributes = None ->
      rejects (create_group group_name group_attributes)
        "Group name or Group attributes not present in the playbook") /\
  (forall group_name group_attributes,
      group_name = None \/ group_attributes = None ->
      rejects (update_group group_name group_attributes)
        "Group name or Group attributes not present in the playbook") /\
  rejects (delete_group None)
    "Group name to be deleted not present in the playbook".
Proof.
  split; [intros St handle st; reflexivity|].
  split; [|split; [|split]];
    try (intros St handle st; reflexivity);
    intros n x [->| ->] St handle st; try reflexivity;
    destruct n as [[|c s]|]; reflexivity.
Qed.

Lemma missing_field_rejected_witness :
  run (fixed_client (Some 200) VNone) (clone (Some "new-group") None) tt =
    (inr (mkResult
            (VStr "Group name or clone-from-group parameters not present in the playbook")
            (Some 400)), tt, []) /\
  http_calls (log_of (fixed_client (Some 200) VNone)
                     (clone (Some "new-group") None) tt) = 0%nat.
Proof.
  destruct missing_field_rejected as (_ & Hclone & _).
  pose proof (Hclone (Some "new-group") None (or_intror eq_refl)
                unit (fixed_client (Some 200) VNone) tt) as H.
  split; [exact H|]. unfold log_of. rewrite H. reflexivity.
Defined.

(** C4 (as amended).  With action get_group_mode and no group_list, the
    validation record carries code 400 and the message
    "List of groups (group_list) not present in the playbook". *)
Theorem get_group_mode_without_list (p : params) :
  action p = "get_group_mode" -> group_list p = None ->
  rejects (api_call p)
    "List of groups (group_list) not present in the playbook".
Proof.
  intros Ha Hl. apply rejects_iff.
  destruct (api_call_dispatch p) as (_ & Hd & _).
  rewrite Hd by (rewrite Ha; reflexivity).
  rewrite Hl. reflexivity.
Qed.

Lemma get_group_mode_without_list_witness :
  rejects (api_call (task "get_group_mode"))
    "List of groups (group_list) not present in the playbook".
Proof.
  apply (get_group_mode_without_list (task "get_group_mode")); reflexivity.
Defined.

(** C4 (as stated) fails: the message is not the short text
    "List of groups not present". *)
Lemma get_group_mode_message_differs :
  exists r, api_call (task "get_group_mode") = Ret r /\
            code r = Some 400 /\
            resp r <> VStr "List of groups not present".
Proof.
  eexists. split; [reflexivity|]. split; [reflexivity|]. discriminate.
Qed.

Lemma bind_Ret_inv {A B : Type} (m : prog A) (f : A -> prog B) (b : B) :
  bind m f = Ret b -> exists a, m = Ret a /\ f a = Ret b.
Proof.
  destruct m as [a|e|X c k]; simpl; intro H; try discriminate.
  exists a. split; [reflexivity|assumption].
Qed.

(** C5 (as amended).  A handler fails fast with its validation record
    (code 400, no call on the client) exactly when a required field is
    absent ([None]) or, for clone, create and update, when group_name is
    the empty string.  Emptiness of the other fields is not checked: an
    empty group_list for get_group_mode and an empty clone_from_group for
    clone go on to one HTTP request. *)
Theorem validation_exact :
  (forall l, (exists msg, rejects (get_group_mode l) msg) <-> l = None) /\
  (forall n c, (exists msg, rejects (clone n c) msg) <->
               n = None \/ n = Some "" \/ c = None) /\
  (forall n a, (exists msg, rejects (create_group n a) msg) <->
               n = None \/ n = Some "" \/ a = None) /\
  (forall n a, (exists msg, rejects (update_group n a) msg) <->
               n = None \/ n = Some "" \/ a = None) /\
  (forall n, (exists msg, rejects (delete_group n) msg) <-> n = None) /\
  (forall St (handle : forall X : Type, client_call X -> St -> X * St) st,
      http_calls (log_of handle (get_group_mode (Some [])) st) = 1%nat /\
      (forall n, n <> "" ->
         http_calls (log_of handle (clone (Some n) (Some "")) st) = 1%nat)).
Proof.
  repeat split.
  - intros [msg H%rejects_iff]. destruct l; [discriminate|reflexivity].
  - intros ->. eexists. apply rejects_iff. reflexivity.
  - intros [msg H%rejects_iff].
    destruct n as [[|ch s]|]; try tauto. destruct c; [discriminate|tauto].
  - intros [->|[->| ->]]; eexists; apply rejects_iff;
      try reflexivity. destruct n as [[|ch s]|]; reflexivity.
  - intros [msg H%rejects_iff].
    destruct n as [[|ch s]|]; try tauto. destruct a as [attrs|]; [|tauto].
    exfalso. unfold create_group in H. cbn [truthy_str is_not_None andb] in H.
    repeat (apply bind_Ret_inv in H; destruct H as (? & Hm & H);
            try discriminate Hm; clear Hm).
  - intros [->|[->| ->]]; eexists; apply rejects_iff;
      try reflexivity. destruct n as [[|ch s]|]; reflexivity.
  - intros [msg H%rejects_iff].
    destruct n as [[|ch s]|]; try tauto. destruct a; [discriminate|tauto].
  - intros [->|[->| ->]]; eexists; apply rejects_iff;
      try reflexivity. destruct n as [[|ch s]|]; reflexivity.
  - intros [msg H%rejects_iff]. destruct n; [discriminate|reflexivity].
  - intros ->. eexists. apply rejects_iff. reflexivity.
  - unfold log_of. step_run handle. reflexivity.
  - intros n Hn. destruct n as [|ch s]; [contradiction|].
    unfold log_of. step_run handle. reflexivity.
Qed.

Lemma validation_exact_witness :
  (exists msg, rejects (clone (Some "") (Some "source")) msg) /\
  http_calls (log_of (fixed_client (Some 200) VNone)
                     (clone (Some "new-group") (Some "")) tt) = 1%nat.
Proof.
  destruct validation_exact as (_ & Hclone & _ & _ & _ & Hsent).
  split.
  - apply Hclone. right. left. reflexivity.
  - apply (Hsent unit (fixed_client (Some 200) VNone) tt). discriminate.
Defined.

(** C5 (as stated) fails: an empty group_list and an empty
    clone_from_group are not rejected; each handler sends its request and
    returns the client's answer. *)
Lemma empty_fields_not_rejected :
  run (fixed_client (Some 200) (VStr "[]")) (get_group_mode (Some [])) tt =
    (inr (mkResult (VStr "[]") (Some 200)), tt,
     [Logged (GetListParams (VList []));
      Logged (GetHeaders false "get");
      Logged (GetUrl "/configuration/v2/groups/template_info"
                     [("groups", VStr "")]);
      Logged (Get "/configuration/v2/groups/template_info" (VDict []))]) /\
  run (fixed_client (Some 200) (VStr "ok")) (clone (Some "new-group") (Some ""))
      tt =
    (inr (mkResult (VStr "ok") (Some 200)), tt,
     [Logged (GetHeaders false "post");
      Logged (Post "/configuration/v2/groups/clone" (VDict [])
                   (VDict [("group", VStr "new-group");
                           ("clone_group", VStr "")]))]).
Proof. split; reflexivity. Qed.

(** ** The requests of update and create *)

(** C9.  For a non-empty group_name and a present group_attributes, the
    update handler asks the client for the headers of the "post" method
    and then issues PATCH /configuration/v2/groups/{group_name} with
    those headers and group_attributes, unchanged, as the body. *)
Theorem update_request (name : string) (attrs : dict) :
  name <> "" ->
  update_group (Some name) (Some attrs) =
  Call (GetHeaders false "post") (fun headers =>
    Call (Patch ("/configuration/v2/groups/" ++ name) headers (VDict attrs))
      Ret).
Proof.
  intro Hn. destruct name as [|c s]; [contradiction|]. reflexivity.
Qed.

Lemma update_request_witness :
  update_group (Some "new-test-group")
               (Some [("group_password", VStr "Aruba@2222")]) =
  Call (GetHeaders false "post") (fun headers =>
    Call (Patch "/configuration/v2/groups/new-test-group" headers
                (VDict [("group_password", VStr "Aruba@2222")]))
      Ret).
Proof.
  apply (update_request "new-test-group"
           [("group_password", VStr "Aruba@2222")]).
  discriminate.
Defined.

(** C2.  With action create, a non-empty group_name and group_attributes
    holding every field, [api_call] asks for the "post" headers and issues
    POST /configuration/v3/groups with the body of section 4.2 (the key
    "MonitorOnly:" included), pruned by [remove_nulls].  For architecture
    AOS10, device type AccessPoints and every other property null, the
    group_properties that are sent have exactly the keys AllowedDevTypes
    and Architecture. *)
Theorem create_request (p : params) (name : string) :
  action p = "create" -> group_name p = Some name -> name <> "" ->
  (forall (attrs ti : dict)
          (wired wireless dt arch ap gw sw mon nc : value),
      group_attributes p = Some attrs ->
      dict_get attrs "template_info" = Some (VDict ti) ->
      dict_get ti "wired" = Some wired ->
      dict_get ti "wireless" = Some wireless ->
      dict_get attrs "device_type" = Some dt ->
      dict_get attrs "architecture" = Some arch ->
      dict_get attrs "ap_role" = Some ap ->
      dict_get attrs "gw_role" = Some gw ->
      dict_get attrs "switch_type" = Some sw ->
      dict_get attrs "monitor_mode" = Some mon ->
      dict_get attrs "new_central" = Some nc ->
      api_call p =
      Call (GetHeaders false "post") (fun headers =>
        Call (Post "/configuration/v3/groups" headers
                (VDict (remove_nulls
                   (create_body name wired wireless dt arch ap gw sw mon nc))))
          Ret)) /\
  (forall wired wireless : bool,
      group_attributes p = Some (aos10_access_points wired wireless) ->
      api_call p =
      Call (GetHeaders false "post") (fun headers =>
        Call (Post "/configuration/v3/groups" headers
                (VDict
                   [("group", VStr name);
                    ("group_attributes", VDict
                       [("template_info", VDict
                           [("Wired", VBool wired);
                            ("Wireless", VBool wireless)]);
                        ("group_properties", VDict
                           [("AllowedDevTypes", VList [VStr "AccessPoints"]);
                            ("Architecture", VStr "AOS10")])])]))
          Ret)).
Proof.
  intros Ha Hn Hne. destruct name as [|c s]; [contradiction|].
  split.
  - intros attrs ti wired wireless dt arch ap gw sw mon nc
           Hattrs Hti Hw Hwl Hdt Harch Hap Hgw Hsw Hmon Hnc.
    destruct (api_call_dispatch p) as (_ & _ & _ & Hd & _).
    rewrite Hd by (rewrite Ha; reflexivity).
    rewrite Hn, Hattrs. unfold create_group.
    cbn [truthy_str is_not_None andb dict_value subscript].
    unfold getitem. rewrite Hti. cbn [bind subscript].
    unfold getitem. rewrite Hw. cbn [bind]. rewrite Hwl. cbn [bind].
    rewrite Hdt, Harch, Hap, Hgw, Hsw, Hmon, Hnc.
    reflexivity.
  - intros wired wireless Hattrs.
    destruct (api_call_dispatch p) as (_ & _ & _ & Hd & _).
    rewrite Hd by (rewrite Ha; reflexivity).
    rewrite Hn, Hattrs. reflexivity.
Qed.

Lemma create_request_witness :
  api_call (mkParams "create" (VInt 20) (VInt 0) None (Some "new-test-group")
              (Some (aos10_access_points false true)) None) =
  Call (GetHeaders false "post") (fun headers =>
    Call (Post "/configuration/v3/groups" headers
            (VDict
               [("group", VStr "new-test-group");
                ("group_attributes", VDict
                   [("template_info", VDict
                       [("Wired", VBool false);
                        ("Wireless", VBool true)]);
                    ("group_properties", VDict
                       [("AllowedDevTypes", VList [VStr "AccessPoints"]);
                        ("Architecture", VStr "AOS10")])])]))
      Ret).
Proof.
  apply (create_request
           (mkParams "create" (VInt 20) (VInt 0) None (Some "new-test-group")
              (Some (aos10_access_points false true)) None)
           "new-test-group");
    try reflexivity.
  discriminate.
Defined.

(** ** Unsupported actions *)



(** ** Response mapping *)

Lemma run_main {St : Type}
    (handle : forall X : Type, client_call X -> St -> X * St)
    (json_loads : string -> option value) (p : params)
    (st st' : St) (r : result) (log : list logged) (z : Z) :
  run handle (api_call p) st = (inr r, st', log) ->
  code r = Some z ->
  run handle (main json_loads p) st =
    (inl (SystemExit (report (classify z) (negb (str_in "get" (action p)))
                             (try_loads json_loads (resp r)) z)),
     st', log).
Proof.
  intros Hrun Hcode. unfold main. rewrite run_bind, Hrun.
  cbn [resp code]. rewrite Hcode.
  unfold classify, truthy_code, code_in, code_value. cbn [existsb].
  destruct (negb (str_in "get" (action p)));
    destruct (Z.eqb_spec z 200) as [->|_];
    try (simpl; rewrite app_nil_r; reflexivity);
    destruct (Z.eqb_spec z 201) as [->|_];
    try (simpl; rewrite app_nil_r; reflexivity);
    destruct (Z.eqb_spec z 304) as [->|_];
    try (simpl; rewrite app_nil_r; reflexivity);
    destruct (Z.eqb_spec z 400) as [->|_];
    try (simpl; rewrite app_nil_r; reflexivity);
    destruct (Z.eqb_spec z 404) as [->|_];
    try (simpl; rewrite app_nil_r; reflexivity);
    destruct (z =? 0); simpl; rewrite app_nil_r; reflexivity.
Qed.

Lemma classify_cases (z : Z) :
  (classify z = Success <-> z = 200 \/ z = 201) /\
  (classify z = NoOpFailure <-> z = 304 \/ z = 400 \/ z = 404) /\
  (classify z = FatalFailure <->
   z <> 200 /\ z <> 201 /\ z <> 304 /\ z <> 400 /\ z <> 404).
Proof.
  unfold classify. cbn [existsb].
  destruct (Z.eqb_spec z 200); [subst; simpl; intuition (try discriminate; lia)|].
  destruct (Z.eqb_spec z 201); [subst; simpl; intuition (try discriminate; lia)|].
  destruct (Z.eqb_spec z 304); [subst; simpl; intuition (try discriminate; lia)|].
  destruct (Z.eqb_spec z 400); [subst; simpl; intuition (try discriminate; lia)|].
  destruct (Z.eqb_spec z 404); [subst; simpl; intuition (try discriminate; lia)|].
  simpl. intuition (try discriminate; lia).
Qed.

(** C1.  Whatever the client, when [api_call] hands [main] a result whose
    code is the integer [z], [main] ends in the report of the class of
    [z]: exit_json with the body and the code for 200 and 201 (Success),
    exit_json with changed=false and the body for 304, 400 and 404
    (NoOpFailure), fail_json with the body for every other integer
    (FatalFailure).  The body reported is the parsed document when the
    response is a string that json.loads accepts, and the response as it
    came otherwise (a string that is not JSON, or not a string).  The
    class is a function of [z] alone, so every integer has exactly one. *)
Theorem response_classification {St : Type}
    (handle : forall X : Type, client_call X -> St -> X * St)
    (json_loads : string -> option value) (p : params)
    (st st' : St) (r : result) (log : list logged) (z : Z) :
  run handle (api_call p) st = (inr r, st', log) ->
  code r = Some z ->
  (exists msg,
      run handle (main json_loads p) st =
        (inl (SystemExit (report (classify z)
                                 (negb (str_in "get" (action p))) msg z)),
         st', log) /\
      (forall s v, resp r = VStr s -> json_loads s = Some v -> msg = v) /\
      (forall s, resp r = VStr s -> json_loads s = None -> msg = VStr s) /\
      ((forall s, resp r <> VStr s) -> msg = resp r)) /\
  (classify z = Success <-> z = 200 \/ z = 201) /\
  (classify z = NoOpFailure <-> z = 304 \/ z = 400 \/ z = 404) /\
  (classify z = FatalFailure <->
   z <> 200 /\ z <> 201 /\ z <> 304 /\ z <> 400 /\ z <> 404).
Proof.
  intros Hrun Hcode. split; [|apply classify_cases].
  exists (try_loads json_loads (resp r)).
  split; [exact (run_main _ _ _ _ _ _ _ _ Hrun Hcode)|].
  unfold try_loads. repeat split.
  - intros s v -> ->. reflexivity.
  - intros s -> ->. reflexivity.
  - intro Hns. destruct (resp r) as [| | |s| |]; try reflexivity.
    exfalso. exact (Hns s eq_refl).
Qed.

Lemma response_classification_witness :
  run (fixed_client (Some 404) (VStr "Group not found"))
      (main json_literals
            (mkParams "delete" (VInt 20) (VInt 0) None (Some "stale-group")
                      (Some (attributes_of [VStr "AccessPoints"])) None)) tt =
    (inl (SystemExit (ExitJson [("changed", VBool false);
                                ("msg", VStr "Group not found");
                                ("response_code", VInt 404)])),
     tt,
     [Logged (GetHeaders false "delete");
      Logged (Delete "/configuration/v1/groups/stale-group" (VDict []))]) /\
  run (fixed_client (Some 200) (VStr "true"))
      (main json_literals (task "get_groups")) tt =
    (inl (SystemExit (ExitJson [("changed", VBool false);
                                ("msg", VBool true);
                                ("response_code", VInt 200)])),
     tt,
     [Logged (GetHeaders false "get");
      Logged (GetUrl "/configuration/v2/groups"
                     [("limit", VInt 20); ("offset", VInt 0)]);
      Logged (Get "/configuration/v2/groups" (VDict []))]).
Proof.
  split.
  - destruct (response_classification
                (fixed_client (Some 404) (VStr "Group not found"))
                json_literals
                (mkParams "delete" (VInt 20) (VInt 0) None
                          (Some "stale-group")
                          (Some (attributes_of [VStr "AccessPoints"])) None)
                tt tt (mkResult (VStr "Group not found") (Some 404)) _ 404
                eq_refl eq_refl) as [(msg & Hrun & _ & Hraw & _) _].
    rewrite Hrun, (Hraw "Group not found" eq_refl eq_refl). reflexivity.
  - destruct (response_classification
                (fixed_client (Some 200) (VStr "true")) json_literals
                (task "get_groups")
                tt tt (mkResult (VStr "true") (Some 200)) _ 200
                eq_refl eq_refl) as [(msg & Hrun & Hparsed & _) _].
    rewrite Hrun, (Hparsed "true" (VBool true) eq_refl eq_refl). reflexivity.
Defined.

Lemma changed_of_action (a : string) :
  In a actions ->
  negb (str_in "get" a) = state_changing a /\
  (state_changing a = false <-> a = "get_groups" \/ a = "get_group_mode").
Proof.
  intros [<-|[<-|[<-|[<-|[<-|[<-|[]]]]]]]; (split; [reflexivity|]);
    split; intro H; try reflexivity; try discriminate H; try tauto;
    destruct H as [H|H]; discriminate H.
Qed.

(** C6.  For each of the six actions, when the returned status code is
    200 or 201 [main] ends in exit_json with changed=true if the action is
    clone, create, update or delete, and with changed=false if it is
    get_groups or get_group_mode. *)
Theorem changed_on_success {St : Type}
    (handle : forall X : Type, client_call X -> St -> X * St)
    (json_loads : string -> option value) (p : params)
    (st st' : St) (r : result) (log : list logged) (z : Z) :
  In (action p) actions ->
  run handle (api_call p) st = (inr r, st', log) ->
  code r = Some z -> z = 200 \/ z = 201 ->
  run handle (main json_loads p) st =
    (inl (SystemExit
            (ExitJson [("changed", VBool (state_changing (action p)));
                       ("msg", try_loads json_loads (resp r));
                       ("response_code", VInt z)])),
     st', log) /\
  (state_changing (action p) = false <->
   action p = "get_groups" \/ action p = "get_group_mode").
Proof.
  intros Hin Hrun Hcode Hz.
  destruct (changed_of_action _ Hin) as [Hch Hread].
  split; [|exact Hread].
  rewrite (run_main _ _ _ _ _ _ _ _ Hrun Hcode), Hch.
  destruct Hz as [->| ->]; reflexivity.
Qed.

Lemma changed_on_success_witness :
  run (fixed_client (Some 201) (VStr "Created")) (main json_literals
        (mkParams "clone" (VInt 20) (VInt 0) None (Some "new-group")
                  None (Some "new-test-group"))) tt =
    (inl (SystemExit (ExitJson [("changed", VBool true);
                                ("msg", VStr "Created");
                                ("response_code", VInt 201)])),
     tt,
     [Logged (GetHeaders false "post");
      Logged (Post "/configuration/v2/groups/clone" (VDict [])
                   (VDict [("group", VStr "new-group");
                           ("clone_group", VStr "new-test-group")]))]) /\
  run (fixed_client (Some 200) (VStr "true")) (main json_literals
        (task "get_groups")) tt =
    (inl (SystemExit (ExitJson [("changed", VBool false);
                                ("msg", VBool true);
                                ("response_code", VInt 200)])),
     tt,
     [Logged (GetHeaders false "get");
      Logged (GetUrl "/configuration/v2/groups"
                     [("limit", VInt 20); ("offset", VInt 0)]);
      Logged (Get "/configuration/v2/groups" (VDict []))]).
Proof.
  split.
  - refine (proj1 (changed_on_success
                     (fixed_client (Some 201) (VStr "Created")) json_literals
                     (mkParams "clone" (VInt 20) (VInt 0) None
                               (Some "new-group") None (Some "new-test-group"))
                     tt tt (mkResult (VStr "Created") (Some 201)) _ 201
                     _ _ _ _)); try reflexivity.
    + simpl. tauto.
    + right. reflexivity.
  - refine (proj1 (changed_on_success
                     (fixed_client (Some 200) (VStr "true")) json_literals
                     (task "get_groups")
                     tt tt (mkResult (VStr "true") (Some 200)) _ 200
                     _ _ _ _)); try reflexivity.
    + simpl. tauto.
    + left. reflexivity.
Defined.

(** ** Local validation failures *)

Lemma json_literals_rejects_words : rejects_words json_literals.
Proof.
  intros c s Hc _ _. unfold json_literals.
  repeat match goal with
         | |- context [String.eqb ?a ?b] =>
             destruct (String.eqb_spec a b) as [Heq|_];
             [injection Heq as Hc' _; subst c; vm_compute in Hc; lia|]
         end.
  reflexivity.
Qed.

(** C10.  When [api_call] returns the record of [error_msg] without a
    call on the client, [main] takes the branch of a 304, 400 or 404
    answer: it ends in exit_json with changed=false, the canned message as
    msg and response code 400 - not in fail_json - and the client is
    never called.  ([json.loads] raises on the canned messages, which are
    not JSON, and the message stays as it is.) *)
Theorem validation_failure_exit (json_loads : string -> option value)
    (p : params) (method : string) (r : result) :
  rejects_words json_loads ->
  In method ["get"; "clone"; "create"; "update"; "delete"] ->
  error_msg method = Ret r ->
  api_call p = Ret r ->
  (exists msg, resp r = VStr msg /\ code r = Some 400) /\
  main json_loads p =
    exit_json [("changed", VBool false); ("msg", resp r);
               ("response_code", VInt 400)] /\
  (forall St (handle : forall X : Type, client_call X -> St -> X * St) st,
      log_of handle (main json_loads p) st = []).
Proof.
  intros Hjson Hin Herr Hcall.
  assert (Hmain : main json_loads p =
    exit_json [("changed", VBool false); ("msg", resp r);
               ("response_code", VInt 400)]).
  { unfold main. rewrite Hcall.
    destruct Hin as [<-|[<-|[<-|[<-|[<-|[]]]]]];
      injection Herr as <-; cbn [bind resp code try_loads append];
      rewrite Hjson by first [discriminate | vm_compute; lia];
      reflexivity. }
  split; [|split; [exact Hmain|]].
  - destruct Hin as [<-|[<-|[<-|[<-|[<-|[]]]]]];
      injection Herr as <-; eexists; split; reflexivity.
  - intros St handle st. rewrite Hmain. reflexivity.
Qed.

Lemma validation_failure_exit_witness :
  main json_literals
       (mkParams "clone" (VInt 20) (VInt 0) None (Some "new-group") None None)
  = exit_json
      [("changed", VBool false);
       ("msg", VStr "Group name or clone-from-group parameters not present in the playbook");
       ("response_code", VInt 400)].
Proof.
  refine (proj1 (proj2 (validation_failure_exit json_literals
           (mkParams "clone" (VInt 20) (VInt 0) None (Some "new-group")
                     None None)
           "clone"
           (mkResult
              (VStr "Group name or clone-from-group parameters not present in the playbook")
              (Some 400))
           json_literals_rejects_words _ _ _))); try reflexivity.
  simpl. tauto.
Defined.

(** * Further properties of the module *)

(** ** remove_nulls: lookups, fixed points, concatenation *)

Lemma null_entry_in_dicts_cons (key : string) (x : value) (rest : dict) :
  null_entry_in_dicts (VDict ((key, x) :: rest)) =
  ((is_none x || null_entry_in_dicts x)
   || null_entry_in_dicts (VDict rest))%bool.
Proof. reflexivity. Qed.

Lemma remove_nulls_value_clean (v : value) :
  null_entry_in_dicts v = false -> remove_nulls_value v = v.
Proof.
  induction v using value_ind; try reflexivity.
  rewrite remove_nulls_value_dict. intro Hclean. f_equal.
  induction H as [|[key x] rest Hx _ IH]; [reflexivity|].
  rewrite null_entry_in_dicts_cons in Hclean.
  apply orb_false_elim in Hclean as [Hhead Hrest].
  apply orb_false_elim in Hhead as [Hnone Hsub].
  simpl in Hx. rewrite remove_nulls_eq, (IH Hrest).
  destruct x; try reflexivity; [discriminate|].
  rewrite <- remove_nulls_value_dict, (Hx Hsub). reflexivity.
Qed.

(** X1.  Reading a pruned mapping: a key that was absent stays absent,
    and a key whose value [v] was not null is still there, with [v] itself
    when [v] is not a mapping and with the pruned [v] when it is. *)
Theorem remove_nulls_lookup (d : dict) (key : string) :
  (dict_get d key = None -> dict_get (remove_nulls d) key = None) /\
  (forall v, dict_get d key = Some v -> v <> VNone ->
             dict_get (remove_nulls d) key = Some (remove_nulls_value v)).
Proof.
  induction d as [|[k x] rest [IHnone IHsome]]; [split; [reflexivity|discriminate]|].
  rewrite remove_nulls_eq. simpl dict_get.
  destruct (String.eqb k key) eqn:Hk; split.
  - discriminate.
  - intros v [= <-] Hv.
    destruct x; try contradiction; simpl; rewrite Hk; reflexivity.
  - intro Hn. destruct x; simpl; rewrite ?Hk; auto.
  - intros v Hv Hnn. destruct x; simpl; rewrite ?Hk; auto.
Qed.

Lemma remove_nulls_lookup_witness :
  let d := [("a", VNone); ("b", VInt 0);
            ("c", VDict [("x", VNone); ("y", VStr "")])] in
  dict_get (remove_nulls d) "zz" = None /\
  dict_get (remove_nulls d) "b" = Some (VInt 0) /\
  dict_get (remove_nulls d) "c" = Some (VDict [("y", VStr "")]).
Proof.
  intro d. destruct (remove_nulls_lookup d "zz") as [Hzz _].
  destruct (remove_nulls_lookup d "b") as [_ Hb].
  destruct (remove_nulls_lookup d "c") as [_ Hc].
  split; [apply Hzz; reflexivity|].
  split; [apply (Hb (VInt 0)); [reflexivity|discriminate]|].
  apply (Hc (VDict [("x", VNone); ("y", VStr "")]));
    [reflexivity|discriminate].
Defined.

(** X2.  The mappings [remove_nulls] leaves unchanged are exactly those
    with no null-valued entry, at the top or in a mapping reached through
    mapping values. *)
Theorem remove_nulls_fixed_iff (d : dict) :
  remove_nulls d = d <-> null_entry_in_dicts (VDict d) = false.
Proof.
  split.
  - intro H. rewrite <- H. apply (remove_nulls_no_null (VDict d)).
  - intro H. apply remove_nulls_value_clean in H.
    rewrite remove_nulls_value_dict in H. now injection H.
Qed.

Lemma remove_nulls_fixed_iff_witness :
  remove_nulls [("group", VStr "g"); ("flags", VDict [("on", VBool false)])]
  = [("group", VStr "g"); ("flags", VDict [("on", VBool false)])].
Proof.
  apply (proj2 (remove_nulls_fixed_iff
                  [("group", VStr "g"); ("flags", VDict [("on", VBool false)])])).
  reflexivity.
Defined.

(** X3.  Pruning works entry by entry: pruning two mappings written one
    after the other gives the two pruned mappings one after the other. *)
Theorem remove_nulls_app (d1 d2 : dict) :
  remove_nulls (d1 ++ d2)%list = (remove_nulls d1 ++ remove_nulls d2)%list.
Proof.
  induction d1 as [|[key x] rest IH]; [reflexivity|].
  rewrite <- app_comm_cons, !(remove_nulls_eq ((key, x) :: _)), IH.
  destruct x; reflexivity.
Qed.

(** ** error_msg outside its five methods *)

(** X4.  [error_msg] returns a record with code 400 and a non-empty text
    for "create", "update", "delete", "clone" and "get"; for every other
    method it returns nothing: [resp] was never assigned and
    UnboundLocalError is raised. *)
Theorem error_msg_methods (method : string) :
  (In method ["create"; "update"; "delete"; "clone"; "get"] ->
   exists msg, msg <> "" /\
               error_msg method = Ret (mkResult (VStr msg) (Some 400))) /\
  (~ In method ["create"; "update"; "delete"; "clone"; "get"] ->
   error_msg method = Raise (UnboundLocalError "resp")).
Proof.
  split.
  - intros [<-|[<-|[<-|[<-|[<-|[]]]]]]; eexists;
      (split; [|reflexivity]); discriminate.
  - intro Hout. unfold error_msg.
    repeat match goal with
           | |- context [String.eqb ?a ?b] =>
               destruct (String.eqb_spec a b) as [Heq|_];
               [exfalso; apply Hout; rewrite Heq; simpl; tauto|]
           end.
    reflexivity.
Qed.

Lemma error_msg_methods_witness :
  error_msg "rename" = Raise (UnboundLocalError "resp") /\
  exists msg, msg <> "" /\
              error_msg "delete" = Ret (mkResult (VStr msg) (Some 400)).
Proof.
  split.
  - apply (proj2 (error_msg_methods "rename")).
    simpl. intros [H|[H|[H|[H|[H|[]]]]]]; discriminate H.
  - apply (proj1 (error_msg_methods "delete")). simpl. tauto.
Defined.

(** ** The shape of every invocation *)

Ltac key_error :=
  left; eexists; split;
  [reflexivity | right; eexists; split; [|reflexivity]; simpl; tauto].

Ltac type_error :=
  left; eexists; split; [reflexivity | left; reflexivity].

Ltac read_field :=
  cbn [bind subscript]; unfold getitem;
  match goal with
  | |- context [match dict_get ?d ?k with _ => _ end] =>
      destruct (dict_get d k) as [?|]; [|key_error]
  end.

Ltac requests :=
  repeat (apply req_before; [reflexivity|intro]); apply req_http; reflexivity.

Lemma create_group_cases (name : option string) (attrs : option dict) :
  (exists e, create_group name attrs = Raise e /\
             (e = TypeError \/
              exists k, In k create_fields /\ e = KeyError k)) \/
  create_group name attrs =
    Ret (mkResult
           (VStr "Group name or Group attributes not present in the playbook")
           (Some 400)) \/
  (exists s data,
      name = Some s /\
      create_group name attrs =
      Call (GetHeaders false "post") (fun headers =>
        Call (Post "/configuration/v3/groups" headers
                (VDict (remove_nulls (("group", VStr s) :: data))))
          Ret)).
Proof.
  destruct name as [[|c s]|]; try (right; left; reflexivity).
  destruct attrs as [attrs|]; [|right; left; reflexivity].
  unfold create_group. cbn [truthy_str is_not_None andb dict_value].
  read_field. cbn [bind].
  match goal with v : value |- _ => destruct v; try type_error end.
  do 9 read_field.
  right; right. eexists; eexists. split; reflexivity.
Qed.

Lemma raise_or_reject_or_request (p : params) :
  (exists e, api_call p = Raise e) \/
  (exists msg, api_call p = Ret (mkResult (VStr msg) (Some 400))) \/
  one_request (api_call p).
Proof.
  unfold api_call.
  destruct (String.eqb_spec (lower (action p)) "get_groups") as [E|_];
    [right; right; unfold get_groups; simpl; requests|].
  destruct (String.eqb_spec (lower (action p)) "get_group_mode") as [E|_].
  { destruct (group_list p) as [l|];
      [right; right; unfold get_group_mode; simpl; requests
      |right; left; eexists; reflexivity]. }
  destruct (String.eqb_spec (lower (action p)) "clone") as [E|_].
  { destruct (group_name p) as [[|c s]|];
      try (right; left; eexists; reflexivity).
    destruct (clone_from_group p);
      [right; right; unfold clone; simpl; requests
      |right; left; eexists; reflexivity]. }
  destruct (String.eqb_spec (lower (action p)) "create") as [E|_].
  { destruct (create_group_cases (group_name p) (group_attributes p))
      as [(e & -> & _)|[->|(s & data & _ & ->)]].
    - left. eexists. reflexivity.
    - right; left. eexists. reflexivity.
    - right; right. requests. }
  destruct (String.eqb_spec (lower (action p)) "update") as [E|_].
  { destruct (group_name p) as [[|c s]|];
      try (right; left; eexists; reflexivity).
    destruct (group_attributes p);
      [right; right; unfold update_group; simpl; requests
      |right; left; eexists; reflexivity]. }
  destruct (String.eqb_spec (lower (action p)) "delete") as [E|_].
  { destruct (group_name p);
      [right; right; unfold delete_group; simpl; requests
      |right; left; eexists; reflexivity]. }
  left. eexists. reflexivity.
Qed.

Lemma http_calls_cons (l : logged) (log : list logged) :
  http_calls (l :: log) =
  ((if logged_http l then 1 else 0) + http_calls log)%nat.
Proof. unfold http_calls. simpl. destruct (logged_http l); reflexivity. Qed.

Lemma http_calls_app (log1 log2 : list logged) :
  http_calls (log1 ++ log2)%list = (http_calls log1 + http_calls log2)%nat.
Proof.
  unfold http_calls. rewrite filter_app, length_app. reflexivity.
Qed.

Lemma one_request_run {St : Type}
    (handle : forall X : Type, client_call X -> St -> X * St)
    (p : prog result) :
  one_request p ->
  forall st, exists r st' pre (c : client_call result) st0,
    run handle p st = (inr r, st', (pre ++ [Logged c])%list) /\
    is_http c = true /\ http_calls pre = 0%nat /\
    handle result c st0 = (r, st').
Proof.
  induction 1 as [c Hc|X c k Hc _ IH]; intro st; simpl.
  - destruct (handle result c st) as [r st'] eqn:Hh.
    exists r, st', [], c, st. repeat split; assumption.
  - destruct (handle X c st) as [x st1].
    destruct (IH x st1) as (r & st' & pre & c' & st0 & Hrun & Hc' & Hpre & Hh).
    rewrite Hrun.
    exists r, st', (Logged c :: pre), c', st0. repeat split; try assumption.
    rewrite http_calls_cons, Hpre. simpl. rewrite Hc. reflexivity.
Qed.

Lemma main_log {St : Type}
    (handle : forall X : Type, client_call X -> St -> X * St)
    (json_loads : string -> option value) (p : params) (st : St) :
  log_of handle (main json_loads p) st = log_of handle (api_call p) st.
Proof.
  unfold log_of, main. rewrite run_bind.
  destruct (run handle (api_call p) st) as [[[e|r] st'] log]; [reflexivity|].
  cbn [resp code].
  destruct (truthy_code (code r) && code_in (code r) [200; 201])%bool;
    [simpl; apply app_nil_r|].
  destruct (truthy_code (code r) && code_in (code r) [304; 400; 404])%bool;
    simpl; apply app_nil_r.
Qed.

(** X5.  Whatever the parameters and the client, when [api_call] stops
    in an exception (KeyError or TypeError from the attributes, or the
    fail_json of an unsupported action), no method of the client has been
    called and the client is as it was. *)
Theorem failure_before_any_call {St : Type}
    (handle : forall X : Type, client_call X -> St -> X * St)
    (p : params) (st st' : St) (e : exn) (log : list logged) :
  run handle (api_call p) st = (inl e, st', log) ->
  log = [] /\ st' = st /\ api_call p = Raise e.
Proof.
  intro Hrun.
  destruct (raise_or_reject_or_request p) as [[e' He]|[[msg Hr]|Hreq]].
  - rewrite He in Hrun |- *. simpl in Hrun. injection Hrun as <- <- <-.
    repeat split.
  - rewrite Hr in Hrun. discriminate Hrun.
  - destruct (one_request_run handle _ Hreq st)
      as (r & st1 & pre & c & st0 & Hrun' & _).
    rewrite Hrun' in Hrun. discriminate Hrun.
Qed.

Lemma failure_before_any_call_witness :
  api_call (mkParams "create" (VInt 20) (VInt 0) None (Some "g")
                     (Some [("template_info", VNone)]) None)
  = Raise TypeError.
Proof.
  refine (proj2 (proj2 (failure_before_any_call
            (fixed_client (Some 200) VNone)
            (mkParams "create" (VInt 20) (VInt 0) None (Some "g")
                      (Some [("template_info", VNone)]) None)
            tt tt TypeError [] _))).
  reflexivity.
Defined.

(** X6.  One invocation of the module sends at most one HTTP request,
    for all parameters and every client. *)
Theorem at_most_one_request {St : Type}
    (handle : forall X : Type, client_call X -> St -> X * St)
    (json_loads : string -> option value) (p : params) (st : St) :
  (http_calls (log_of handle (main json_loads p) st) <= 1)%nat.
Proof.
  rewrite main_log. unfold log_of.
  destruct (raise_or_reject_or_request p) as [[e' He]|[[msg Hr]|Hreq]].
  - rewrite He. unfold http_calls. simpl. lia.
  - rewrite Hr. unfold http_calls. simpl. lia.
  - destruct (one_request_run handle _ Hreq st)
      as (r & st1 & pre & c & st0 & Hrun & Hc & Hpre & _).
    rewrite Hrun. cbn [snd].
    rewrite http_calls_app, Hpre, http_calls_cons. simpl. rewrite Hc.
    reflexivity.
Qed.

(** X7.  A result that [api_call] returns is either the validation
    record - code 400, a text, no call on the client - or the answer of
    the client to the one HTTP request, which is the last call made, handed
    back unchanged. *)
Theorem result_origin {St : Type}
    (handle : forall X : Type, client_call X -> St -> X * St)
    (p : params) (st st' : St) (r : result) (log : list logged) :
  run handle (api_call p) st = (inr r, st', log) ->
  (log = [] /\ st' = st /\ exists msg, r = mkResult (VStr msg) (Some 400)) \/
  (exists pre (c : client_call result) st0,
      log = (pre ++ [Logged c])%list /\ is_http c = true /\
      http_calls pre = 0%nat /\ handle result c st0 = (r, st')).
Proof.
  intro Hrun.
  destruct (raise_or_reject_or_request p) as [[e' He]|[[msg Hr]|Hreq]].
  - rewrite He in Hrun. discriminate Hrun.
  - rewrite Hr in Hrun. simpl in Hrun. injection Hrun as <- <- <-.
    left. repeat split. exists msg. reflexivity.
  - destruct (one_request_run handle _ Hreq st)
      as (r1 & st1 & pre & c & st0 & Hrun' & Hc & Hpre & Hh).
    rewrite Hrun' in Hrun. injection Hrun as <- <- <-.
    right. exists pre, c, st0. repeat split; assumption.
Qed.

Lemma result_origin_witness :
  exists pre (c : client_call result) st0,
    [Logged (GetHeaders false "delete");
     Logged (Delete "/configuration/v1/groups/old" (VDict []))]
    = (pre ++ [Logged c])%list /\ is_http c = true /\
    http_calls pre = 0%nat /\
    fixed_client (Some 404) (VStr "gone") result c st0
    = (mkResult (VStr "gone") (Some 404), tt).
Proof.
  destruct (result_origin (fixed_client (Some 404) (VStr "gone"))
              (mkParams "delete" (VInt 20) (VInt 0) None (Some "old")
                        None None)
              tt tt (mkResult (VStr "gone") (Some 404))
              [Logged (GetHeaders false "delete");
               Logged (Delete "/configuration/v1/groups/old" (VDict []))]
              eq_refl) as [(Hnil & _)|H].
  - discriminate Hnil.
  - exact H.
Defined.

(** ** main on a missing status code *)

(** X9.  A result without a status code ([None]) or with code 0 fails
    the test [result['code'] and ...] of both branches: [main] ends in
    fail_json with changed=false, the body and that code. *)
Theorem no_status_code_fails {St : Type}
    (handle : forall X : Type, client_call X -> St -> X * St)
    (json_loads : string -> option value) (p : params)
    (st st' : St) (r : result) (log : list logged) :
  run handle (api_call p) st = (inr r, st', log) ->
  code r = None \/ code r = Some 0 ->
  run handle (main json_loads p) st =
    (inl (SystemExit
            (FailJson [("changed", VBool false);
                       ("msg", try_loads json_loads (resp r));
                       ("response_code", code_value (code r))])),
     st', log).
Proof.
  intros Hrun Hcode. unfold main. rewrite run_bind, Hrun. cbn [resp code].
  destruct Hcode as [-> | ->]; simpl; rewrite app_nil_r; reflexivity.
Qed.

Lemma no_status_code_fails_witness :
  run (fixed_client None (VStr "timeout"))
      (main json_literals (task "get_groups")) tt
  = (inl (SystemExit
            (FailJson [("changed", VBool false); ("msg", VStr "timeout");
                       ("response_code", VNone)])),
     tt,
     [Logged (GetHeaders false "get");
      Logged (GetUrl "/configuration/v2/groups"
                     [("limit", VInt 20); ("offset", VInt 0)]);
      Logged (Get "/configuration/v2/groups" (VDict []))]).
Proof.
  apply (no_status_code_fails (fixed_client None (VStr "timeout"))
           json_literals (task "get_groups") tt tt
           (mkResult (VStr "timeout") None)).
  - reflexivity.
  - left. reflexivity.
Defined.

(** ** create_group: what is sent, and what is raised *)

(** X10.  Whatever the attributes and the client, a POST that
    create_group sends goes to /configuration/v3/groups, its body is a
    mapping with no null-valued entry (at the top or in a mapping reached
    through mapping values), and the "group" entry of the body is the
    group name. *)
Theorem create_posts_pruned {St : Type}
    (handle : forall X : Type, client_call X -> St -> X * St)
    (name : option string) (attrs : option dict) (st : St)
    (l : logged) (path : string) (data : value) :
  In l (log_of handle (create_group name attrs) st) ->
  posted l = Some (path, data) ->
  path = "/configuration/v3/groups" /\
  null_entry_in_dicts data = false /\
  exists s d, name = Some s /\ data = VDict d /\
              dict_get d "group" = Some (VStr s).
Proof.
  unfold log_of.
  destruct (create_group_cases name attrs)
    as [(e & -> & _)|[->|(s & body & Hname & ->)]];
    try (simpl; contradiction).
  step_run handle. intros Hin Hpost.
  destruct Hin as [<-|[<-|[]]]; [discriminate Hpost|].
  injection Hpost as <- <-.
  split; [reflexivity|].
  split; [apply (remove_nulls_no_null (VDict _))|].
  exists s, (remove_nulls (("group", VStr s) :: body)).
  split; [assumption|]. split; [reflexivity|].
  rewrite remove_nulls_eq. reflexivity.
Qed.

Lemma create_posts_pruned_witness :
  null_entry_in_dicts
    (VDict
       [("group", VStr "g");
        ("group_attributes", VDict
           [("template_info", VDict
               [("Wired", VBool false); ("Wireless", VBool true)]);
            ("group_properties", VDict
               [("AllowedDevTypes", VList [VStr "AccessPoints"]);
                ("Architecture", VStr "AOS10")])])]) = false.
Proof.
  refine (proj1 (proj2 (create_posts_pruned (fixed_client (Some 201) VNone)
            (Some "g") (Some (aos10_access_points false true)) tt
            (Logged (Post "/configuration/v3/groups" (VDict []) _))
            "/configuration/v3/groups" _ _ eq_refl))).
  right. left. reflexivity.
Defined.

(** X11.  With a non-empty group name, create_group reads the attributes
    before it calls the client and stops at the first one it cannot read:
    KeyError "template_info" when that key is missing, TypeError when
    template_info is not a mapping, and, when template_info is complete,
    KeyError for the first of device_type, architecture, ap_role, gw_role,
    switch_type, monitor_mode, new_central that is missing. *)
Theorem create_group_attribute_errors (name : string) (attrs : dict) :
  name <> "" ->
  (dict_get attrs "template_info" = None ->
   create_group (Some name) (Some attrs) = Raise (KeyError "template_info")) /\
  (forall v, dict_get attrs "template_info" = Some v ->
             (forall d, v <> VDict d) ->
             create_group (Some name) (Some attrs) = Raise TypeError) /\
  (forall ti wired wireless pre key post,
      dict_get attrs "template_info" = Some (VDict ti) ->
      dict_get ti "wired" = Some wired ->
      dict_get ti "wireless" = Some wireless ->
      ["device_type"; "architecture"; "ap_role"; "gw_role"; "switch_type";
       "monitor_mode"; "new_central"] = (pre ++ key :: post)%list ->
      (forall k, In k pre -> dict_get attrs k <> None) ->
      dict_get attrs key = None ->
      create_group (Some name) (Some attrs) = Raise (KeyError key)).
Proof.
  intro Hn. destruct name as [|c s]; [contradiction|].
  unfold create_group. cbn [truthy_str is_not_None andb dict_value subscript].
  unfold getitem. repeat split.
  - intros ->. reflexivity.
  - intros v -> Hv. cbn [bind].
    destruct v; try reflexivity. exfalso. exact (Hv _ eq_refl).
  - intros ti wired wireless pre key post -> Hw Hwl Hfields Hpre Hkey.
    cbn [bind subscript]. unfold getitem. rewrite Hw, Hwl. cbn [bind].
    do 7 (destruct pre as [|? pre];
          [injection Hfields as <- _; rewrite Hkey; reflexivity|];
          injection Hfields as <- Hfields;
          match goal with
          | |- context [match dict_get attrs ?k with _ => _ end] =>
              destruct (dict_get attrs k) eqn:?;
              [|exfalso; apply (Hpre k); [simpl; tauto|assumption]]
          end; cbn [bind]).
    destruct pre; discriminate Hfields.
Qed.

Lemma create_group_attribute_errors_witness :
  create_group (Some "g")
    (Some [("template_info", VDict [("wired", VBool false);
                                    ("wireless", VBool false)]);
           ("device_type", VList [VStr "Switches"])])
  = Raise (KeyError "architecture").
Proof.
  refine (proj2 (proj2 (create_group_attribute_errors "g"
            [("template_info", VDict [("wired", VBool false);
                                      ("wireless", VBool false)]);
             ("device_type", VList [VStr "Switches"])] _))
            [("wired", VBool false); ("wireless", VBool false)]
            (VBool false) (VBool false)
            ["device_type"] "architecture"
            ["ap_role"; "gw_role"; "switch_type"; "monitor_mode";
             "new_central"] eq_refl eq_refl eq_refl eq_refl _ eq_refl).
  - discriminate.
  - intros k [<-|[]]. discriminate.
Defined.

(** ** The requests of the other four actions *)

(** X13.  Through [api_call], with the action compared in lower case:
    get_groups asks for the "get" headers, has the client build the URL
    of /configuration/v2/groups with limit and offset as given, and GETs
    that URL; get_group_mode does the same on
    /configuration/v2/groups/template_info with the groups parameter the
    client made of the list; clone, for a non-empty group name, POSTs
    {group, clone_group} to /configuration/v2/groups/clone; delete, for
    any group name that is present (the empty one too), DELETEs
    /configuration/v1/groups/{group_name} with the "delete" headers. *)
Theorem request_table (p : params) :
  (lower (action p) = "get_groups" ->
   api_call p =
   Call (GetHeaders false "get") (fun headers =>
     Call (GetUrl "/configuration/v2/groups"
                  [("limit", limit p); ("offset", offset p)]) (fun path =>
       Call (Get path headers) Ret))) /\
  (forall l,
      lower (action p) = "get_group_mode" -> group_list p = Some l ->
      api_call p =
      Call (GetListParams (VList l)) (fun groups =>
        Call (GetHeaders false "get") (fun headers =>
          Call (GetUrl "/configuration/v2/groups/template_info"
                       [("groups", VStr groups)]) (fun path =>
            Call (Get path headers) Ret)))) /\
  (forall n c,
      lower (action p) = "clone" -> group_name p = Some n -> n <> "" ->
      clone_from_group p = Some c ->
      api_call p =
      Call (GetHeaders false "post") (fun headers =>
        Call (Post "/configuration/v2/groups/clone" headers
                (VDict [("group", VStr n); ("clone_group", VStr c)]))
          Ret)) /\
  (forall n,
      lower (action p) = "delete" -> group_name p = Some n ->
      api_call p =
      Call (GetHeaders false "delete") (fun headers =>
        Call (Delete ("/configuration/v1/groups/" ++ n) headers) Ret)).
Proof.
  destruct (api_call_dispatch p) as (Hgs & Hgm & Hcl & _ & _ & Hde).
  split; [intro E; rewrite (Hgs E); reflexivity|].
  split; [intros l E Hl; rewrite (Hgm E), Hl; reflexivity|].
  split.
  - intros n c E Hn Hne Hc. rewrite (Hcl E), Hn, Hc.
    destruct n as [|ch s]; [contradiction|]. reflexivity.
  - intros n E Hn. rewrite (Hde E), Hn. reflexivity.
Qed.

Lemma request_table_witness :
  api_call (mkParams "Delete" (VInt 20) (VInt 0) None (Some "") None None) =
  Call (GetHeaders false "delete") (fun headers =>
    Call (Delete "/configuration/v1/groups/" headers) Ret) /\
  api_call (mkParams "get_group_mode" (VInt 20) (VInt 0)
                     (Some [VStr "g1"; VStr "g2"]) None None None) =
  Call (GetListParams (VList [VStr "g1"; VStr "g2"])) (fun groups =>
    Call (GetHeaders false "get") (fun headers =>
      Call (GetUrl "/configuration/v2/groups/template_info"
                   [("groups", VStr groups)]) (fun path =>
        Call (Get path headers) Ret))).
Proof.
  split.
  - apply (proj2 (proj2 (proj2 (request_table
             (mkParams "Delete" (VInt 20) (VInt 0) None (Some "") None None))))
             ""); reflexivity.
  - apply (proj1 (proj2 (request_table
             (mkParams "get_group_mode" (VInt 20) (VInt 0)
                       (Some [VStr "g1"; VStr "g2"]) None None None)))
             [VStr "g1"; VStr "g2"]); reflexivity.
Defined.
